(** * geminiService.ts: retrying executor and the four prompt operations

    A shallow embedding of [src/geminiService.ts].  JavaScript values are
    modelled by [jsval] (numbers as integers, strings as byte strings,
    objects as ordered property lists with their enumerability flag);
    promise rejection and thrown exceptions by the error monad [res];
    the timing behaviour of [callGeminiWithRetry] by a trace of [event]s. *)

From Stdlib Require Import String Ascii List ZArith QArith Bool Lia.
Import ListNotations.
Open Scope string_scope.
Open Scope Z_scope.
Set Warnings "-register-all".

(** ** JavaScript values *)

Inductive jsval : Type :=
| JUndefined
| JNull
| JBool (b : bool)
| JNumber (n : Z)
| JString (s : string)
| JArray (xs : list jsval)
(** own properties in insertion order: key, enumerable flag, value *)
| JObject (props : list (string * bool * jsval)).

(** A computation that returns an [A] or throws a JavaScript value. *)
Inductive res (A : Type) : Type :=
| Ok (a : A)
| Throw (e : jsval).
Arguments Ok {A} a.
Arguments Throw {A} e.

Definition res_bind {A B} (m : res A) (k : A -> res B) : res B :=
  match m with
  | Ok a => k a
  | Throw e => Throw e
  end.

Notation "x <- m ;; k" := (res_bind m (fun x => k))
  (at level 61, m at next level, right associativity).

(** [a || b] on boolean-valued expressions: [b] is only consulted when
    [a] completed with a falsy value, so an exception in [b] is raised only
    then. *)
Definition res_or (a b : res bool) : res bool :=
  match a with
  | Ok true => Ok true
  | Ok false => b
  | Throw e => Throw e
  end.

Infix "|||" := res_or (at level 50, left associativity).

(** A [TypeError] instance: [message] and [stack] are own, non-enumerable. *)
Definition type_error (msg : string) : jsval :=
  JObject [("stack", false, JString ("TypeError: " ++ msg));
           ("message", false, JString msg)].

Definition nullish (v : jsval) : bool :=
  match v with
  | JUndefined | JNull => true
  | _ => false
  end.

Fixpoint lookup_prop (k : string) (ps : list (string * bool * jsval)) : option jsval :=
  match ps with
  | [] => None
  | (k', _, v) :: ps' => if String.eqb k k' then Some v else lookup_prop k ps'
  end.

(** Reading property [k] of a non-nullish value: own property or
    [undefined] (none of the names read here exist on primitives or arrays). *)
Definition get_prop (v : jsval) (k : string) : jsval :=
  match v with
  | JObject ps => match lookup_prop k ps with Some x => x | None => JUndefined end
  | _ => JUndefined
  end.

(** [v?.k] *)
Definition opt_get (v : jsval) (k : string) : jsval :=
  if nullish v then JUndefined else get_prop v k.

(** [v.k]: throws on [undefined] and [null]. *)
Definition member (v : jsval) (k : string) : res jsval :=
  if nullish v then Throw (type_error ("Cannot read properties of undefined (reading '" ++ k ++ "')"))
  else Ok (get_prop v k).

(** ** Strings *)

(** [String.prototype.includes] *)
Fixpoint includes (s pat : string) : bool :=
  if String.prefix pat s then true
  else match s with
       | EmptyString => false
       | String _ s' => includes s' pat
       end.

Definition char (n : nat) : string := String (ascii_of_nat n) EmptyString.
Definition dq : string := char 34.

Fixpoint digits_aux (fuel : nat) (n : Z) (acc : string) : string :=
  match fuel with
  | O => acc
  | S f =>
    let acc' := String (ascii_of_nat (48 + Z.to_nat (n mod 10))) acc in
    if n / 10 =? 0 then acc' else digits_aux f (n / 10) acc'
  end.

(** Decimal rendering of an integral number, as [String(n)]. *)
Definition Z_to_string (n : Z) : string :=
  let fuel := S (Pos.size_nat (Z.to_pos (Z.abs n))) in
  if n <? 0 then "-" ++ digits_aux fuel (- n) "" else digits_aux fuel n "".

Definition hex_digit (n : nat) : string :=
  if Nat.ltb n 10 then char (48 + n) else char (87 + n).

(** JSON string escaping: double quote, backslash and control characters. *)
Fixpoint json_escape (s : string) : string :=
  match s with
  | EmptyString => EmptyString
  | String c s' =>
    let n := nat_of_ascii c in
    let e :=
      if Nat.eqb n 34 then "\" ++ dq
      else if Nat.eqb n 92 then "\\"
      else if Nat.eqb n 8 then "\b"
      else if Nat.eqb n 9 then "\t"
      else if Nat.eqb n 10 then "\n"
      else if Nat.eqb n 12 then "\f"
      else if Nat.eqb n 13 then "\r"
      else if Nat.ltb n 32 then "\u00" ++ hex_digit (n / 16) ++ hex_digit (n mod 16)
      else String c EmptyString in
    e ++ json_escape s'
  end.

Definition json_quote (s : string) : string := dq ++ json_escape s ++ dq.

(** [JSON.stringify(v)]: [None] is the [undefined] it returns for
    [undefined].  Only enumerable own properties are written and those
    whose value stringifies to [undefined] are skipped; in arrays such an
    element becomes [null].  (Cyclic structures, on which it throws, are
    not representable in [jsval].) *)
Fixpoint json_stringify (v : jsval) : option string :=
  match v with
  | JUndefined => None
  | JNull => Some "null"
  | JBool b => Some (if b then "true" else "false")
  | JNumber n => Some (Z_to_string n)
  | JString s => Some (json_quote s)
  | JArray xs =>
    let fix items (xs : list jsval) : list string :=
      match xs with
      | [] => []
      | x :: xs' =>
        match json_stringify x with Some s => s | None => "null" end :: items xs'
      end in
    Some ("[" ++ String.concat "," (items xs) ++ "]")
  | JObject ps =>
    let fix members (ps : list (string * bool * jsval)) : list string :=
      match ps with
      | [] => []
      | (k, enum, x) :: ps' =>
        if enum then
          match json_stringify x with
          | Some s => (json_quote k ++ ":" ++ s) :: members ps'
          | None => members ps'
          end
        else members ps'
      end in
    Some ("{" ++ String.concat "," (members ps) ++ "}")
  end.

(** ** The retry classification (lines 27-35) *)

(** [x === n] for a number literal [n] *)
Definition strict_eq_num (x : jsval) (n : Z) : bool :=
  match x with
  | JNumber m => Z.eqb m n
  | _ => false
  end.

(** [recv.includes(pat)]: [String.prototype.includes] on strings,
    [Array.prototype.includes] (SameValueZero) on arrays, and a [TypeError]
    on anything else, where [includes] is not a function. *)
Definition call_includes (recv : jsval) (pat : string) : res bool :=
  match recv with
  | JString s => Ok (includes s pat)
  | JArray xs =>
    Ok (existsb (fun x => match x with JString s => String.eqb s pat | _ => false end) xs)
  | JUndefined | JNull =>
    Throw (type_error "Cannot read properties of undefined (reading 'includes')")
  | _ => Throw (type_error "includes is not a function")
  end.

(** [error?.message?.includes(pat)]: [undefined] (falsy) when the message
    is nullish. *)
Definition message_includes (error : jsval) (pat : string) : res bool :=
  let m := opt_get error "message" in
  if nullish m then Ok false else call_includes m pat.

(** [JSON.stringify(error).includes(pat)] *)
Definition stringify_includes (error : jsval) (pat : string) : res bool :=
  match json_stringify error with
  | Some s => Ok (includes s pat)
  | None => Throw (type_error "Cannot read properties of undefined (reading 'includes')")
  end.

Definition isRateLimit (error : jsval) : res bool :=
  Ok (strict_eq_num (opt_get error "status") 429) |||
  Ok (strict_eq_num (opt_get error "code") 429) |||
  message_includes error "429" |||
  message_includes error "RESOURCE_EXHAUSTED" |||
  message_includes error "quota" |||
  stringify_includes error "429" |||
  stringify_includes error "RESOURCE_EXHAUSTED" |||
  stringify_includes error "quota".

(** ** The retrying executor [callGeminiWithRetry] (lines 14-49) *)

(** What the [n]-th invocation of [apiCall] settles to. *)
Inductive outcome : Type :=
| Resolved (v : jsval)
| Rejected (e : jsval).

(** Observable steps of one run: an invocation of [apiCall], and a
    [sleep(ms)] suspension. *)
Inductive event : Type :=
| ECall
| ESleep (ms : Z).

(** Where a run throws: while evaluating the classification (inside the
    [catch] block), at [throw error] (line 45, inside the [catch] block), or
    at [throw lastError] after the loop (line 48). *)
Inductive throw_site : Type :=
| SiteClassify
| SiteCatch
| SiteAfterLoop.

Inductive completion : Type :=
| Returned (v : jsval)
| Raised (site : throw_site) (e : jsval).

Section Executor.

Variable apiCall : nat -> outcome.
Variables maxRetries initialDelay : Z.

(** The [for] loop from index [i], with [lastError] as last assigned;
    [fuel] bounds the iterations and is [maxRetries] at the start. *)
Fixpoint retry_loop (fuel : nat) (i : Z) (lastError : jsval) : list event * completion :=
  match fuel with
  | O => ([], Raised SiteAfterLoop lastError)
  | S fuel' =>
    if i <? maxRetries then
      match apiCall (Z.to_nat i) with
      | Resolved v => ([ECall], Returned v)
      | Rejected error =>
        match isRateLimit error with
        | Throw te => ([ECall], Raised SiteClassify te)
        | Ok isRateLimit =>
          if isRateLimit && (i <? maxRetries - 1) then
            let delay := initialDelay * 2 ^ i in
            let '(tr, r) := retry_loop fuel' (i + 1) error in
            (ECall :: ESleep delay :: tr, r)
          else ([ECall], Raised SiteCatch error)
        end
      end
    else ([], Raised SiteAfterLoop lastError)
  end.

Definition callGeminiWithRetry : list event * completion :=
  retry_loop (Z.to_nat maxRetries) 0 JUndefined.

End Executor.

(** The defaults [maxRetries = 5], [initialDelay = 5000] used by every
    operation. *)
Definition callGeminiWithRetry_default (apiCall : nat -> outcome) : list event * completion :=
  callGeminiWithRetry apiCall 5 5000.

Definition is_call (ev : event) : bool :=
  match ev with ECall => true | ESleep _ => false end.

Definition calls (tr : list event) : nat := length (filter is_call tr).

(** ** Requests and credential *)

Record config : Type := mk_config {
  systemInstruction : string;
  temperature : option Q;
  responseMimeType : option string;
  responseSchema : option jsval
}.

Record request : Type := mk_request {
  req_model : string;
  contents : string;
  req_config : config
}.

(** The service: what the [n]-th [generateContent] call with a request
    settles to. *)
Definition service : Type := request -> nat -> outcome.

(** [import.meta.env.VITE_GEMINI_API_KEY], tested by [!apiKey]: absent
    when undefined or the empty string. *)
Definition no_api_key (apiKey : option string) : bool :=
  match apiKey with
  | None => true
  | Some k => String.eqb k ""
  end.

Definition nl : string := char 10.

Definition model_name : string := "gemini-2.0-flash".

(** The body of a [try] block ending in [return response.text], run after
    the awaited executor: [None] is the transfer to [catch]. *)
Definition response_text (r : completion) : option jsval :=
  match r with
  | Returned response =>
    match member response "text" with
    | Ok t => Some t
    | Throw _ => None
    end
  | Raised _ _ => None
  end.

(** ** [getAiFeedback] (lines 51-92) *)

Definition feedback_no_key : string :=
  "API Key 未設置。請在 .env.local 中設置 VITE_GEMINI_API_KEY / API Key chưa được cấu hình. Vui lòng đặt VITE_GEMINI_API_KEY trong .env.local".

Definition feedback_fallback : string :=
  "AI 暫時無法回應 (已達流量限制或出現錯誤)。請稍候 1 分鐘後再試。/ AI tạm thời không phản hồi (đã đạt giới hạn lưu lượng hoặc gặp lỗi). Vui lòng thử lại sau 1 phút.".

Definition feedback_request (question maleAnswer femaleAnswer targetLangName : string) : request :=
  let systemInstruction :=
    "You are an expert consultant for Taiwan-Vietnam marriage interviews. " ++ nl ++
    "  Your goal is to analyze the answers from both the groom and the bride, point out any inconsistencies, and provide professional advice to make their answers more persuasive, consistent, and authentic. " ++ nl ++
    "  IMPORTANT: You must provide your response entirely in " ++ targetLangName ++ "." in
  let prompt :=
    nl ++ "    Question: " ++ question ++ nl ++
    "    Groom's Answer: " ++ maleAnswer ++ nl ++
    "    Bride's Answer: " ++ femaleAnswer ++ nl ++
    "    " ++ nl ++
    "    Please provide feedback and suggestions in " ++ targetLangName ++ "." ++ nl ++ "  " in
  mk_request model_name prompt
    (mk_config systemInstruction (Some (7 # 10)) None None).

Definition getAiFeedback (apiKey : option string) (generateContent : service)
    (question maleAnswer femaleAnswer targetLangName : string) : list event * res jsval :=
  if no_api_key apiKey then ([], Ok (JString feedback_no_key))
  else
    let req := feedback_request question maleAnswer femaleAnswer targetLangName in
    let '(tr, r) := callGeminiWithRetry_default (generateContent req) in
    (tr, match response_text r with
         | Some t => Ok t
         | None => Ok (JString feedback_fallback)
         end).

(** ** [translateText] (lines 94-127) *)

Inductive lang : Type := Zh | Vi.

Definition translate_request (text : string) (targetLang : lang) : request :=
  let targetLabel := match targetLang with Zh => "Traditional Chinese" | Vi => "Vietnamese" end in
  let systemInstruction :=
    "You are a professional translator specializing in Taiwan and Vietnam cultural context. " ++ nl ++
    "  Translate the given text into " ++ targetLabel ++ ". " ++ nl ++
    "  Maintain the original meaning and emotional tone. " ++ nl ++
    "  Only return the translated text. Do not add any explanation or markers." in
  mk_request model_name text (mk_config systemInstruction (Some (3 # 10)) None None).

Definition translateText (apiKey : option string) (generateContent : service)
    (text : string) (targetLang : lang) : list event * res jsval :=
  if no_api_key apiKey then ([], Ok JNull)
  else
    let '(tr, r) := callGeminiWithRetry_default (generateContent (translate_request text targetLang)) in
    (tr, match response_text r with
         | Some t => Ok t
         | None => Ok JNull
         end).

(** ** [getAiSummary] (lines 129-168) *)

Inductive SummaryType : Type := Concise | Detailed | Keypoints.

Definition summary_no_key : string := "API Key 未設置。/ API Key chưa được cấu hình.".

(** The [instruction] chosen by the [if] chain on [type]. *)
Definition summary_instruction (targetLangName : string) (type : SummaryType) : string :=
  match type with
  | Concise =>
    "You are a concise summarization tool. Summarize the following content in under 30 words. You MUST respond entirely in " ++ targetLangName ++ "."
  | Detailed =>
    "You are a detailed summarization tool. Summarize the following content in about 100 words with details. You MUST respond entirely in " ++ targetLangName ++ "."
  | Keypoints =>
    "You are a key points extraction tool. List the most important 3 to 5 key points. You MUST respond entirely in " ++ targetLangName ++ "."
  end.

Definition summary_request (answer targetLangName : string) (type : SummaryType) : request :=
  mk_request model_name ("Content to summarize: " ++ answer)
    (mk_config (summary_instruction targetLangName type) (Some (5 # 10)) None None).

(** [type] is the optional parameter: [None] when the argument is omitted,
    which the default [type = 'concise'] replaces. *)
Definition getAiSummary (apiKey : option string) (generateContent : service)
    (answer targetLangName : string) (type : option SummaryType) : list event * res jsval :=
  let type := match type with Some t => t | None => Concise end in
  if no_api_key apiKey then ([], Ok (JString summary_no_key))
  else
    let '(tr, r) := callGeminiWithRetry_default (generateContent (summary_request answer targetLangName type)) in
    (tr, match response_text r with
         | Some t => Ok t
         | None => Ok JNull
         end).

(** ** [checkAnswerConsistency] (lines 170-220) *)

(** [ToString], as [JSON.parse] applies it to its argument. *)
Fixpoint js_to_string (v : jsval) : string :=
  match v with
  | JUndefined => "undefined"
  | JNull => "null"
  | JBool b => if b then "true" else "false"
  | JNumber n => Z_to_string n
  | JString s => s
  | JArray xs =>
    let fix items (xs : list jsval) : list string :=
      match xs with
      | [] => []
      | x :: xs' => (if nullish x then "" else js_to_string x) :: items xs'
      end in
    String.concat "," (items xs)
  | JObject _ => "[object Object]"
  end.

Definition consistent_true : jsval := JObject [("consistent", true, JBool true)].

Definition consistency_schema : jsval :=
  JObject [("type", true, JString "OBJECT");
           ("properties", true,
             JObject [("consistent", true, JObject [("type", true, JString "BOOLEAN")]);
                      ("reason", true, JObject [("type", true, JString "STRING");
                                                ("description", true, JString "A short reason if contradictory")])]);
           ("required", true, JArray [JString "consistent"])].

Definition consistency_request (question maleAnswer femaleAnswer : string) : request :=
  let systemInstruction :=
    "You are a fact-checking assistant for marriage interviews. " ++ nl ++
    "  Compare the Groom's and Bride's answers to the given question. " ++ nl ++
    "  Determine if they are semantically contradictory (e.g., different dates, different locations, different people)." ++ nl ++
    "  Ignore minor phrasing differences. Focus only on factual conflicts." ++ nl ++
    "  Respond only in JSON format." in
  let prompt :=
    nl ++ "    Question: " ++ question ++ nl ++
    "    Groom's Answer: " ++ maleAnswer ++ nl ++
    "    Bride's Answer: " ++ femaleAnswer ++ nl ++
    "    " ++ nl ++
    "    Check for factual contradictions." ++ nl ++ "  " in
  mk_request model_name prompt
    (mk_config systemInstruction None (Some "application/json") (Some consistency_schema)).

Section Consistency.

(** The host's [JSON.parse] on a string: [None] is the [SyntaxError] it
    throws. *)
Variable JSON_parse : string -> option jsval.

Definition checkAnswerConsistency (apiKey : option string) (generateContent : service)
    (question maleAnswer femaleAnswer : string) : list event * res jsval :=
  if no_api_key apiKey then ([], Ok consistent_true)
  else
    let req := consistency_request question maleAnswer femaleAnswer in
    let '(tr, r) := callGeminiWithRetry_default (generateContent req) in
    (tr, match response_text r with
         | Some t =>
           match JSON_parse (js_to_string t) with
           | Some v => Ok v
           | None => Ok consistent_true
           end
         | None => Ok consistent_true
         end).

End Consistency.

(** ** A concrete [JSON.parse]

    [json_parse] follows the JSON grammar for literals, integers, strings
    (with the escapes other than [\u]), arrays and objects; a number with a
    fraction or exponent, which [jsval] cannot hold, and a [\u] escape are
    refused.  It instantiates [checkAnswerConsistency] on concrete texts. *)

Definition is_ws (c : ascii) : bool :=
  let n := nat_of_ascii c in
  Nat.eqb n 32 || Nat.eqb n 9 || Nat.eqb n 10 || Nat.eqb n 13.

Fixpoint skip_ws (s : string) : string :=
  match s with
  | String c s' => if is_ws c then skip_ws s' else s
  | EmptyString => EmptyString
  end.

Definition is_digit (c : ascii) : bool :=
  let n := nat_of_ascii c in Nat.leb 48 n && Nat.leb n 57.

Definition digit_val (c : ascii) : Z := Z.of_nat (nat_of_ascii c - 48).

Fixpoint take_digits (s : string) (acc : Z) : Z * string :=
  match s with
  | String c s' => if is_digit c then take_digits s' (10 * acc + digit_val c) else (acc, s)
  | EmptyString => (acc, s)
  end.

Definition starts_with_char (n : nat) (s : string) : bool :=
  match s with
  | String c _ => Nat.eqb (nat_of_ascii c) n
  | EmptyString => false
  end.

(** [-? (0 | [1-9][0-9]* )], refusing a following fraction or exponent. *)
Definition parse_number (s : string) : option (jsval * string) :=
  let '(neg, s1) := if starts_with_char 45 s then (true, substring 1 (String.length s) s) else (false, s) in
  match s1 with
  | String c s2 =>
    if negb (is_digit c) then None
    else
      let '(n, rest) := if Nat.eqb (nat_of_ascii c) 48 then (0%Z, s2) else take_digits s1 0 in
      if starts_with_char 46 rest || starts_with_char 101 rest || starts_with_char 69 rest
         || (Nat.eqb (nat_of_ascii c) 48 && match rest with String d _ => is_digit d | _ => false end)
      then None
      else Some (JNumber (if neg then - n else n), rest)
  | EmptyString => None
  end.

(** The body of a string literal after its opening quote. *)
Fixpoint parse_string_body (s : string) : option (string * string) :=
  match s with
  | EmptyString => None
  | String c s' =>
    let n := nat_of_ascii c in
    if Nat.eqb n 34 then Some (EmptyString, s')
    else if Nat.ltb n 32 then None
    else if Nat.eqb n 92 then
      match s' with
      | String e s'' =>
        let m := nat_of_ascii e in
        let decoded :=
          if Nat.eqb m 34 then Some (ascii_of_nat 34)
          else if Nat.eqb m 92 then Some (ascii_of_nat 92)
          else if Nat.eqb m 47 then Some (ascii_of_nat 47)
          else if Nat.eqb m 98 then Some (ascii_of_nat 8)
          else if Nat.eqb m 102 then Some (ascii_of_nat 12)
          else if Nat.eqb m 110 then Some (ascii_of_nat 10)
          else if Nat.eqb m 114 then Some (ascii_of_nat 13)
          else if Nat.eqb m 116 then Some (ascii_of_nat 9)
          else None in
        match decoded, parse_string_body s'' with
        | Some d, Some (body, rest) => Some (String d body, rest)
        | _, _ => None
        end
      | EmptyString => None
      end
    else
      match parse_string_body s' with
      | Some (body, rest) => Some (String c body, rest)
      | None => None
      end
  end.

(** A repeated key keeps its first position and takes the last value. *)
Fixpoint set_prop (k : string) (v : jsval) (ps : list (string * bool * jsval))
    : list (string * bool * jsval) :=
  match ps with
  | [] => [(k, true, v)]
  | (k', e, x) :: ps' => if String.eqb k k' then (k', e, v) :: ps' else (k', e, x) :: set_prop k v ps'
  end.

Definition after_prefix (p s : string) : option string :=
  if String.prefix p s then Some (substring (String.length p) (String.length s) s) else None.

Fixpoint parse_value (fuel : nat) (s : string) : option (jsval * string) :=
  match fuel with
  | O => None
  | S f =>
    let s := skip_ws s in
    match after_prefix "null" s, after_prefix "true" s, after_prefix "false" s with
    | Some r, _, _ => Some (JNull, r)
    | _, Some r, _ => Some (JBool true, r)
    | _, _, Some r => Some (JBool false, r)
    | None, None, None =>
      match s with
      | String c s' =>
        let n := nat_of_ascii c in
        if Nat.eqb n 34 then
          match parse_string_body s' with
          | Some (body, r) => Some (JString body, r)
          | None => None
          end
        else if Nat.eqb n 91 then
          let s' := skip_ws s' in
          if starts_with_char 93 s' then Some (JArray [], substring 1 (String.length s') s')
          else parse_items f s' []
        else if Nat.eqb n 123 then
          let s' := skip_ws s' in
          if starts_with_char 125 s' then Some (JObject [], substring 1 (String.length s') s')
          else parse_members f s' []
        else parse_number s
      | EmptyString => None
      end
    end
  end
(** elements after [[], the ones read so far in [acc] *)
with parse_items (fuel : nat) (s : string) (acc : list jsval) : option (jsval * string) :=
  match fuel with
  | O => None
  | S f =>
    match parse_value f s with
    | Some (v, r) =>
      let r := skip_ws r in
      match r with
      | String c r' =>
        if Nat.eqb (nat_of_ascii c) 44 then parse_items f r' (acc ++ [v])
        else if Nat.eqb (nat_of_ascii c) 93 then Some (JArray (acc ++ [v]), r')
        else None
      | EmptyString => None
      end
    | None => None
    end
  end
(** members after [{], the properties read so far in [acc] *)
with parse_members (fuel : nat) (s : string) (acc : list (string * bool * jsval))
    : option (jsval * string) :=
  match fuel with
  | O => None
  | S f =>
    let s := skip_ws s in
    match s with
    | String c s' =>
      if negb (Nat.eqb (nat_of_ascii c) 34) then None
      else
        match parse_string_body s' with
        | Some (k, r) =>
          let r := skip_ws r in
          if negb (starts_with_char 58 r) then None
          else
            match parse_value f (substring 1 (String.length r) r) with
            | Some (v, r2) =>
              let r2 := skip_ws r2 in
              let acc := set_prop k v acc in
              match r2 with
              | String d r3 =>
                if Nat.eqb (nat_of_ascii d) 44 then parse_members f r3 acc
                else if Nat.eqb (nat_of_ascii d) 125 then Some (JObject acc, r3)
                else None
              | EmptyString => None
              end
            | None => None
            end
        | None => None
        end
    | EmptyString => None
    end
  end.

Definition json_parse (s : string) : option jsval :=
  match parse_value (S (String.length s)) s with
  | Some (v, rest) => match skip_ws rest with EmptyString => Some v | _ => None end
  | None => None
  end.

(** ** Properties stated by the spec, written from its words *)

Open Scope list_scope.

(** The delays [initialDelay * 2^k] for [k = j .. j + n - 1], each after a
    failed attempt. *)
Definition backoff_trace (initialDelay : Z) (j n : nat) : list event :=
  flat_map (fun k => [ECall; ESleep (initialDelay * 2 ^ Z.of_nat k)]) (seq j n).

(** The retryable errors as the spec lists them: [status] equal to 429,
    numeric [code] equal to 429, a message containing "429",
    "RESOURCE_EXHAUSTED" or "quota", or a JSON serialization containing one
    of them. *)
Definition claim_retryable (e : jsval) : Prop :=
  opt_get e "status" = JNumber 429 \/
  opt_get e "code" = JNumber 429 \/
  (exists m, opt_get e "message" = JString m /\
     (includes m "429" = true \/ includes m "RESOURCE_EXHAUSTED" = true \/ includes m "quota" = true)) \/
  (exists s, json_stringify e = Some s /\
     (includes s "429" = true \/ includes s "RESOURCE_EXHAUSTED" = true \/ includes s "quota" = true)).

(** Errors of the shape the upstream service produces: not [undefined],
    and with a [message] that is absent, [null] or a string. *)
Definition well_shaped (e : jsval) : bool :=
  match e with JUndefined => false | _ => true end &&
  match opt_get e "message" with JUndefined | JNull | JString _ => true | _ => false end.

(** The declared response schema of the consistency check: a boolean
    [consistent], and [reason] absent or a string. *)
Definition conforms_schema (v : jsval) : bool :=
  match v with
  | JObject ps =>
    match lookup_prop "consistent" ps with Some (JBool _) => true | _ => false end &&
    match lookup_prop "reason" ps with None | Some (JString _) => true | _ => false end
  | _ => false
  end.

(** Concrete inputs *)

Definition error_numeric_429 : jsval := JObject [("message", true, JNumber 429)].
Definition error_numeric_5 : jsval := JObject [("message", true, JNumber 5)].

(** A service whose every answer is a response with the given text. *)
Definition answering (text : string) : service :=
  fun _ _ => Resolved (JObject [("text", true, JString text)]).

(** An [ApiError] for a rate-limited request, and one for a bad request. *)
Definition error_status_429 : jsval :=
  JObject [("stack", false, JString "ApiError: RESOURCE_EXHAUSTED");
           ("message", false, JString "RESOURCE_EXHAUSTED: quota exceeded");
           ("status", true, JNumber 429)].
Definition error_400 : jsval :=
  JObject [("stack", false, JString "ApiError: INVALID_ARGUMENT");
           ("message", false, JString "INVALID_ARGUMENT: bad request");
           ("status", true, JNumber 400)].

(** A call that is rate limited once and then answers. *)
Definition retry_then_ok (k : nat) : outcome :=
  match k with
  | O => Rejected error_status_429
  | S _ => Resolved (JString "ok")
  end.

(** A service whose every call fails with [e]. *)
Definition failing (e : jsval) : service := fun _ _ => Rejected e.

(** [new Error(m)]: own, non-enumerable [stack] and [message]. *)
Definition new_error (m : string) : jsval :=
  JObject [("stack", false, JString ("Error: " ++ m)%string); ("message", false, JString m)].

(** Total time a trace spends in [sleep]. *)
Fixpoint total_sleep (tr : list event) : Z :=
  match tr with
  | [] => 0
  | ECall :: tr' => total_sleep tr'
  | ESleep ms :: tr' => ms + total_sleep tr'
  end.

(** How the run ends at attempt [n], read off the loop body: a resolved
    call returns; a rejected one throws from the classification, or
    rethrows the error when it is not retryable or [n] is the last index. *)
Definition attempt_ends (apiCall : nat -> outcome) (maxRetries : Z) (n : nat) (r : completion) : Prop :=
  match apiCall n with
  | Resolved v => r = Returned v
  | Rejected e =>
    match isRateLimit e with
    | Throw te => r = Raised SiteClassify te
    | Ok b => r = Raised SiteCatch e /\ (b = false \/ Z.of_nat n = maxRetries - 1)
    end
  end.

(** ** Executor lemmas *)

Lemma calls_app (t1 t2 : list event) : calls (t1 ++ t2) = (calls t1 + calls t2)%nat.
Proof. unfold calls. rewrite filter_app, length_app. reflexivity. Qed.

Lemma calls_backoff_trace (d : Z) (n : nat) : forall j, calls (backoff_trace d j n) = n.
Proof.
  induction n as [|n IH]; intros j; [reflexivity|].
  unfold backoff_trace, calls in *. simpl. f_equal. apply IH.
Qed.

Lemma retry_loop_S (ac : nat -> outcome) (m d : Z) (fuel : nat) (i : Z) (le : jsval) :
  retry_loop ac m d (S fuel) i le =
  if i <? m then
    match ac (Z.to_nat i) with
    | Resolved v => ([ECall], Returned v)
    | Rejected error =>
      match isRateLimit error with
      | Throw te => ([ECall], Raised SiteClassify te)
      | Ok b =>
        if b && (i <? m - 1) then
          let '(tr, r) := retry_loop ac m d fuel (i + 1) error in
          (ECall :: ESleep (d * 2 ^ i) :: tr, r)
        else ([ECall], Raised SiteCatch error)
      end
    end
  else ([], Raised SiteAfterLoop le).
Proof. reflexivity. Qed.

Section ExecutorProofs.

Variable apiCall : nat -> outcome.
Variables maxRetries initialDelay : Z.

Lemma retry_loop_all_retryable (errs : nat -> jsval) :
  (forall k, isRateLimit (errs k) = Ok true) ->
  forall f j le, Z.of_nat (j + S f) = maxRetries ->
  retry_loop (fun k => Rejected (errs k)) maxRetries initialDelay (S f) (Z.of_nat j) le
  = (backoff_trace initialDelay j f ++ [ECall], Raised SiteCatch (errs (j + f)%nat)).
Proof.
  intros Hcls f. induction f as [|f IH]; intros j le Hmax.
  - rewrite retry_loop_S, Nat2Z.id, Hcls.
    replace (Z.of_nat j <? maxRetries) with true by (symmetry; apply Z.ltb_lt; lia).
    replace (Z.of_nat j <? maxRetries - 1) with false by (symmetry; apply Z.ltb_ge; lia).
    rewrite Nat.add_0_r. reflexivity.
  - rewrite retry_loop_S, Nat2Z.id, Hcls.
    replace (Z.of_nat j <? maxRetries) with true by (symmetry; apply Z.ltb_lt; lia).
    replace (Z.of_nat j <? maxRetries - 1) with true by (symmetry; apply Z.ltb_lt; lia).
    cbn [andb].
    replace (Z.of_nat j + 1) with (Z.of_nat (S j)) by lia.
    rewrite (IH (S j) (errs j)) by lia.
    replace (j + S f)%nat with (S j + f)%nat by lia.
    reflexivity.
Qed.

Lemma retry_loop_success :
  forall fuel j le tr r k v,
  retry_loop apiCall maxRetries initialDelay fuel (Z.of_nat j) le = (tr, r) ->
  apiCall (j + k)%nat = Resolved v -> (k < calls tr)%nat ->
  exists pre, tr = pre ++ [ECall] /\ calls pre = k /\ r = Returned v.
Proof.
  induction fuel as [|fuel IH]; intros j le tr r k v Hrun Hk Hlt.
  - cbn in Hrun. inversion Hrun; subst. cbn in Hlt. lia.
  - rewrite retry_loop_S, Nat2Z.id in Hrun.
    destruct (Z.of_nat j <? maxRetries); [|inversion Hrun; subst; cbn in Hlt; lia].
    destruct (apiCall j) as [v'|e] eqn:Hj.
    + inversion Hrun; subst. cbn in Hlt.
      assert (k = 0%nat) by lia. subst k. rewrite Nat.add_0_r in Hk.
      rewrite Hj in Hk. inversion Hk; subst.
      exists []. auto.
    + destruct (isRateLimit e) as [b|te].
      * destruct (b && (Z.of_nat j <? maxRetries - 1)).
        -- destruct (retry_loop apiCall maxRetries initialDelay fuel (Z.of_nat j + 1) e)
             as [tr' r'] eqn:Hrec.
           inversion Hrun; subst.
           destruct k as [|k].
           ++ rewrite Nat.add_0_r, Hj in Hk. discriminate.
           ++ replace (Z.of_nat j + 1) with (Z.of_nat (S j)) in Hrec by lia.
              assert (Hk' : apiCall (S j + k)%nat = Resolved v) by (rewrite <- Hk; f_equal; lia).
              assert (Hlt' : (k < calls tr')%nat) by (cbn in Hlt; unfold calls in *; cbn in Hlt; lia).
              destruct (IH (S j) e tr' r k v Hrec Hk' Hlt') as [pre [-> [Hc ->]]].
              exists (ECall :: ESleep (initialDelay * 2 ^ Z.of_nat j) :: pre).
              split; [reflexivity|]. split; [|reflexivity].
              unfold calls in *. cbn. lia.
        -- inversion Hrun; subst. cbn in Hlt.
           assert (k = 0%nat) by lia. subst k. rewrite Nat.add_0_r, Hj in Hk. discriminate.
      * inversion Hrun; subst. cbn in Hlt.
        assert (k = 0%nat) by lia. subst k. rewrite Nat.add_0_r, Hj in Hk. discriminate.
Qed.

Lemma retry_loop_throws_in_catch :
  forall fuel i le tr r,
  Z.of_nat fuel = maxRetries - i -> 0 <= i -> i < maxRetries ->
  retry_loop apiCall maxRetries initialDelay fuel i le = (tr, r) ->
  (exists pre, tr = pre ++ [ECall]) /\
  ((exists v, r = Returned v) \/ (exists site e, r = Raised site e /\ site <> SiteAfterLoop)).
Proof.
  induction fuel as [|fuel IH]; intros i le tr r Hfuel Hi Hlt Hrun.
  - lia.
  - rewrite retry_loop_S in Hrun.
    replace (i <? maxRetries) with true in Hrun by (symmetry; apply Z.ltb_lt; lia).
    destruct (apiCall (Z.to_nat i)) as [v|e].
    + inversion Hrun; subst. split; [exists []; reflexivity|]. left. eauto.
    + destruct (isRateLimit e) as [b|te].
      * destruct (b && (i <? maxRetries - 1)) eqn:Hb.
        -- apply andb_true_iff in Hb as [_ Hb]. apply Z.ltb_lt in Hb.
           destruct (retry_loop apiCall maxRetries initialDelay fuel (i + 1) e)
             as [tr' r'] eqn:Hrec.
           inversion Hrun; subst.
           destruct (IH (i + 1) e tr' r ltac:(lia) ltac:(lia) ltac:(lia) Hrec) as [[pre ->] Hr].
           split; [|exact Hr].
           exists (ECall :: ESleep (initialDelay * 2 ^ i) :: pre). reflexivity.
        -- inversion Hrun; subst. split; [exists []; reflexivity|].
           right. exists SiteCatch, e. split; [reflexivity|discriminate].
      * inversion Hrun; subst. split; [exists []; reflexivity|].
        right. exists SiteClassify, te. split; [reflexivity|discriminate].
Qed.

End ExecutorProofs.

(** ** Claims on the executor *)

(** C2: when every attempt fails with an error the classification marks
    retryable, the executor makes exactly [maxRetries] attempts, sleeps
    [initialDelay * 2^k] after attempt [k] for [k = 0 .. maxRetries - 2],
    not after the last one, and fails with the last error. *)
Theorem callGeminiWithRetry_exhausts_retries (errs : nat -> jsval) (maxRetries initialDelay : Z) :
  1 <= maxRetries ->
  (forall k, isRateLimit (errs k) = Ok true) ->
  callGeminiWithRetry (fun k => Rejected (errs k)) maxRetries initialDelay
  = (backoff_trace initialDelay 0 (Z.to_nat maxRetries - 1) ++ [ECall],
     Raised SiteCatch (errs (Z.to_nat maxRetries - 1)%nat)) /\
  calls (fst (callGeminiWithRetry (fun k => Rejected (errs k)) maxRetries initialDelay))
  = Z.to_nat maxRetries.
Proof.
  intros Hmax Hcls.
  assert (Heq : callGeminiWithRetry (fun k => Rejected (errs k)) maxRetries initialDelay
    = (backoff_trace initialDelay 0 (Z.to_nat maxRetries - 1) ++ [ECall],
       Raised SiteCatch (errs (Z.to_nat maxRetries - 1)%nat))).
  { unfold callGeminiWithRetry.
    replace (Z.to_nat maxRetries) with (S (Z.to_nat maxRetries - 1)) at 1 by lia.
    change 0 with (Z.of_nat 0).
    apply (retry_loop_all_retryable maxRetries initialDelay errs Hcls). lia. }
  split; [exact Heq|].
  rewrite Heq. cbn [fst]. rewrite calls_app, calls_backoff_trace. cbn. lia.
Qed.

(** C5: if attempt [k] is made and succeeds with [v], the run returns [v];
    attempt [k] is the last event, so no further attempt and no further
    delay follow it. *)
Theorem callGeminiWithRetry_success_stops (apiCall : nat -> outcome) (maxRetries initialDelay : Z)
    (tr : list event) (r : completion) (k : nat) (v : jsval) :
  callGeminiWithRetry apiCall maxRetries initialDelay = (tr, r) ->
  apiCall k = Resolved v ->
  (k < calls tr)%nat ->
  r = Returned v /\ exists pre, tr = pre ++ [ECall] /\ calls pre = k.
Proof.
  intros Hrun Hk Hlt.
  unfold callGeminiWithRetry in Hrun. change 0 with (Z.of_nat 0) in Hrun.
  destruct (retry_loop_success apiCall maxRetries initialDelay _ 0 JUndefined tr r k v Hrun Hk Hlt)
    as [pre [Htr [Hc Hr]]].
  split; [exact Hr|]. exists pre. auto.
Qed.

(** C10: with [maxRetries >= 1] every run either returns or throws inside
    the [catch] block of its last attempt (its last event is that attempt's
    call); a throw at [throw lastError] after the loop happens only when
    [maxRetries <= 0], with no attempt made and [lastError] undefined. *)
Theorem callGeminiWithRetry_after_loop_unreachable (apiCall : nat -> outcome)
    (maxRetries initialDelay : Z) (tr : list event) (r : completion) :
  callGeminiWithRetry apiCall maxRetries initialDelay = (tr, r) ->
  (1 <= maxRetries ->
     (exists v, r = Returned v) \/
     (exists site e, r = Raised site e /\ site <> SiteAfterLoop /\ exists pre, tr = pre ++ [ECall])) /\
  (forall e, r = Raised SiteAfterLoop e -> maxRetries <= 0 /\ e = JUndefined /\ tr = []).
Proof.
  intros Hrun.
  assert (Hpos : 1 <= maxRetries ->
     (exists pre, tr = pre ++ [ECall]) /\
     ((exists v, r = Returned v) \/ (exists site e, r = Raised site e /\ site <> SiteAfterLoop))).
  { intros Hmax. unfold callGeminiWithRetry in Hrun.
    apply (retry_loop_throws_in_catch apiCall maxRetries initialDelay (Z.to_nat maxRetries) 0 JUndefined);
      [lia|lia|lia|exact Hrun]. }
  split.
  - intros Hmax. destruct (Hpos Hmax) as [Htr [Hr|[site [e [Hr Hs]]]]]; [left; exact Hr|].
    right. exists site, e. auto.
  - intros e He. destruct (Z_le_gt_dec maxRetries 0) as [Hle|Hgt].
    + unfold callGeminiWithRetry in Hrun.
      replace (Z.to_nat maxRetries) with 0%nat in Hrun by lia.
      cbn in Hrun. inversion Hrun; subst. inversion H1. auto.
    + destruct (Hpos ltac:(lia)) as [_ [[v Hr]|[site [e' [Hr Hs]]]]];
        rewrite Hr in He; inversion He; subst; congruence.
Qed.

(** ** The classification on well-shaped errors *)

Lemma res_or_ok (a b : bool) : Ok a ||| Ok b = Ok (a || b).
Proof. destruct a; reflexivity. Qed.

Lemma json_stringify_defined (e : jsval) :
  e <> JUndefined -> exists s, json_stringify e = Some s.
Proof. destruct e; intros H; try congruence; eexists; reflexivity. Qed.

Lemma strict_eq_num_429 (x : jsval) : strict_eq_num x 429 = true <-> x = JNumber 429.
Proof.
  destruct x; cbn; split; intros H; try discriminate; try (inversion H; fail).
  - apply Z.eqb_eq in H. subst. reflexivity.
  - inversion H. reflexivity.
Qed.

Lemma isRateLimit_well_shaped (e : jsval) :
  well_shaped e = true ->
  exists b, isRateLimit e = Ok b /\ (b = true <-> claim_retryable e).
Proof.
  intros Hw. unfold well_shaped in Hw. apply andb_true_iff in Hw as [Hu Hm].
  destruct (json_stringify_defined e) as [s Hs]; [destruct e; cbn in Hu; congruence|].
  set (mi := fun p => match opt_get e "message" with JString m => includes m p | _ => false end).
  assert (Hmi : forall p, message_includes e p = Ok (mi p)).
  { intros p. unfold message_includes, mi.
    destruct (opt_get e "message"); cbn in Hm |- *; congruence. }
  assert (Hsi : forall p, stringify_includes e p = Ok (includes s p)).
  { intros p. unfold stringify_includes. rewrite Hs. reflexivity. }
  unfold isRateLimit. rewrite !Hmi, !Hsi, !res_or_ok.
  eexists. split; [reflexivity|].
  unfold claim_retryable. rewrite !orb_true_iff, !strict_eq_num_429.
  split.
  - intros [[[[[[[H|H]|H]|H]|H]|H]|H]|H]; auto;
      try (right; right; left; unfold mi in H;
           destruct (opt_get e "message"); try discriminate; eexists; split; [reflexivity|]; auto; fail);
      right; right; right; exists s; auto.
  - intros [H|[H|[[m [Hm' H]]|[s' [Hs' H]]]]].
    + tauto.
    + tauto.
    + unfold mi. rewrite Hm'. tauto.
    + rewrite Hs in Hs'. inversion Hs'; subst. tauto.
Qed.





(** ** Claims on the operations *)

(** C6: without a credential [getAiFeedback] returns the fixed bilingual
    message and makes no call. *)
Theorem getAiFeedback_no_key (apiKey : option string) (generateContent : service)
    (question maleAnswer femaleAnswer targetLangName : string) :
  no_api_key apiKey = true ->
  getAiFeedback apiKey generateContent question maleAnswer femaleAnswer targetLangName
  = ([], Ok (JString "API Key 未設置。請在 .env.local 中設置 VITE_GEMINI_API_KEY / API Key chưa được cấu hình. Vui lòng đặt VITE_GEMINI_API_KEY trong .env.local")).
Proof. intros Hk. unfold getAiFeedback. rewrite Hk. reflexivity. Qed.

(** C7: [getAiFeedback] never throws; with a credential, a failed run of
    the executor gives the fixed bilingual fallback and a response gives
    its [text] unmodified. *)
Theorem getAiFeedback_fallback (apiKey : option string) (generateContent : service)
    (question maleAnswer femaleAnswer targetLangName : string) :
  (exists v, snd (getAiFeedback apiKey generateContent question maleAnswer femaleAnswer targetLangName) = Ok v) /\
  (no_api_key apiKey = false ->
   forall tr r,
   callGeminiWithRetry_default
     (generateContent (feedback_request question maleAnswer femaleAnswer targetLangName)) = (tr, r) ->
   (forall site e, r = Raised site e ->
      getAiFeedback apiKey generateContent question maleAnswer femaleAnswer targetLangName
      = (tr, Ok (JString "AI 暫時無法回應 (已達流量限制或出現錯誤)。請稍候 1 分鐘後再試。/ AI tạm thời không phản hồi (đã đạt giới hạn lưu lượng hoặc gặp lỗi). Vui lòng thử lại sau 1 phút."))) /\
   (forall ps, r = Returned (JObject ps) ->
      getAiFeedback apiKey generateContent question maleAnswer femaleAnswer targetLangName
      = (tr, Ok (get_prop (JObject ps) "text")))).
Proof.
  split.
  - unfold getAiFeedback. destruct (no_api_key apiKey); [eexists; reflexivity|].
    destruct (callGeminiWithRetry_default _) as [tr r].
    destruct (response_text r); eexists; reflexivity.
  - intros Hk tr r Hrun. unfold getAiFeedback. rewrite Hk, Hrun.
    split; intros; subst r; reflexivity.
Qed.

(** C8: [translateText] gives [null] without a credential (no call made)
    and after a failed run of the executor, and the response [text]
    otherwise. *)
Theorem translateText_null (apiKey : option string) (generateContent : service)
    (text : string) (targetLang : lang) :
  (no_api_key apiKey = true ->
   translateText apiKey generateContent text targetLang = ([], Ok JNull)) /\
  (no_api_key apiKey = false ->
   forall tr r,
   callGeminiWithRetry_default (generateContent (translate_request text targetLang)) = (tr, r) ->
   (forall site e, r = Raised site e ->
      translateText apiKey generateContent text targetLang = (tr, Ok JNull)) /\
   (forall ps, r = Returned (JObject ps) ->
      translateText apiKey generateContent text targetLang = (tr, Ok (get_prop (JObject ps) "text")))).
Proof.
  split.
  - intros Hk. unfold translateText. rewrite Hk. reflexivity.
  - intros Hk tr r Hrun. unfold translateText. rewrite Hk, Hrun.
    split; intros; subst r; reflexivity.
Qed.

(** C9: the three summary variants build pairwise distinct instructions
    for every language name, and omitting [type] is the same as passing
    [Concise]. *)
Theorem getAiSummary_variants (targetLangName : string) :
  summary_instruction targetLangName Concise <> summary_instruction targetLangName Detailed /\
  summary_instruction targetLangName Concise <> summary_instruction targetLangName Keypoints /\
  summary_instruction targetLangName Detailed <> summary_instruction targetLangName Keypoints /\
  (forall apiKey generateContent answer,
     getAiSummary apiKey generateContent answer targetLangName None
     = getAiSummary apiKey generateContent answer targetLangName (Some Concise)).
Proof.
  split; [|split; [|split]];
    try (intros H; apply (f_equal (String.get 10)) in H; cbn in H; discriminate).
  intros. reflexivity.
Qed.



(** ** Witnesses: the theorems applied at concrete inputs *)

Lemma callGeminiWithRetry_exhausts_retries_witness :
  callGeminiWithRetry (fun _ => Rejected error_status_429) 3 100
  = ([ECall; ESleep 100; ECall; ESleep 200; ECall], Raised SiteCatch error_status_429).
Proof.
  destruct (callGeminiWithRetry_exhausts_retries (fun _ => error_status_429) 3 100
              ltac:(lia) ltac:(intros; vm_compute; reflexivity)) as [H _].
  rewrite H. vm_compute. reflexivity.
Defined.

Lemma callGeminiWithRetry_success_stops_witness :
  callGeminiWithRetry retry_then_ok 5 5000
    = ([ECall; ESleep 5000; ECall], Returned (JString "ok")) /\
  (Returned (JString "ok") = Returned (JString "ok") /\
   exists pre, [ECall; ESleep 5000; ECall] = pre ++ [ECall] /\ calls pre = 1%nat).
Proof.
  split; [vm_compute; reflexivity|].
  apply (callGeminiWithRetry_success_stops retry_then_ok 5 5000 _ _ 1 (JString "ok"));
    [vm_compute; reflexivity|reflexivity|vm_compute; lia].
Defined.

Lemma callGeminiWithRetry_after_loop_unreachable_witness :
  ((exists v, Returned (JString "ok") = Returned v) \/
   (exists site e, Returned (JString "ok") = Raised site e /\ site <> SiteAfterLoop /\
      exists pre, [ECall; ESleep 5000; ECall] = pre ++ [ECall])) /\
  callGeminiWithRetry retry_then_ok 0 5000 = ([], Raised SiteAfterLoop JUndefined).
Proof.
  split; [|vm_compute; reflexivity].
  destruct (callGeminiWithRetry_after_loop_unreachable retry_then_ok 5 5000
              [ECall; ESleep 5000; ECall] (Returned (JString "ok")) ltac:(vm_compute; reflexivity))
    as [H _].
  apply H. lia.
Defined.



Lemma getAiFeedback_no_key_witness :
  getAiFeedback None (answering "unused") "Where did you meet?" "Taipei" "Taipei" "Vietnamese"
  = ([], Ok (JString "API Key 未設置。請在 .env.local 中設置 VITE_GEMINI_API_KEY / API Key chưa được cấu hình. Vui lòng đặt VITE_GEMINI_API_KEY trong .env.local")).
Proof. apply getAiFeedback_no_key. reflexivity. Defined.

Lemma getAiFeedback_fallback_witness :
  getAiFeedback (Some "key") (answering "Good") "Where did you meet?" "Taipei" "Taipei" "Vietnamese"
    = ([ECall], Ok (JString "Good")) /\
  getAiFeedback (Some "key") (failing error_400) "Where did you meet?" "Taipei" "Taipei" "Vietnamese"
    = ([ECall], Ok (JString "AI 暫時無法回應 (已達流量限制或出現錯誤)。請稍候 1 分鐘後再試。/ AI tạm thời không phản hồi (đã đạt giới hạn lưu lượng hoặc gặp lỗi). Vui lòng thử lại sau 1 phút.")).
Proof.
  split.
  - destruct (getAiFeedback_fallback (Some "key") (answering "Good") "Where did you meet?"
                "Taipei" "Taipei" "Vietnamese") as [_ H].
    destruct (H eq_refl [ECall] (Returned (JObject [("text", true, JString "Good")]))
                ltac:(vm_compute; reflexivity)) as [_ H2].
    apply (H2 [("text", true, JString "Good")]). reflexivity.
  - destruct (getAiFeedback_fallback (Some "key") (failing error_400) "Where did you meet?"
                "Taipei" "Taipei" "Vietnamese") as [_ H].
    destruct (H eq_refl [ECall] (Raised SiteCatch error_400) ltac:(vm_compute; reflexivity))
      as [H2 _].
    apply (H2 SiteCatch error_400). reflexivity.
Defined.

Lemma translateText_null_witness :
  translateText None (answering "Xin chào") "你好" Vi = ([], Ok JNull) /\
  translateText (Some "key") (failing error_400) "你好" Vi = ([ECall], Ok JNull) /\
  translateText (Some "key") (answering "Xin chào") "你好" Vi = ([ECall], Ok (JString "Xin chào")).
Proof.
  split; [|split].
  - apply (translateText_null None (answering "Xin chào") "你好" Vi). reflexivity.
  - destruct (translateText_null (Some "key") (failing error_400) "你好" Vi) as [_ H].
    destruct (H eq_refl [ECall] (Raised SiteCatch error_400) ltac:(vm_compute; reflexivity))
      as [H2 _].
    apply (H2 SiteCatch error_400). reflexivity.
  - destruct (translateText_null (Some "key") (answering "Xin chào") "你好" Vi) as [_ H].
    destruct (H eq_refl [ECall] (Returned (JObject [("text", true, JString "Xin chào")]))
                ltac:(vm_compute; reflexivity)) as [_ H2].
    apply (H2 [("text", true, JString "Xin chào")]). reflexivity.
Defined.


(** ** Further properties of the executor *)

Section RunShape.

Variable apiCall : nat -> outcome.
Variables maxRetries initialDelay : Z.

Lemma retry_loop_shape :
  forall fuel j le tr r,
  Z.of_nat fuel = maxRetries - Z.of_nat j -> Z.of_nat j < maxRetries ->
  retry_loop apiCall maxRetries initialDelay fuel (Z.of_nat j) le = (tr, r) ->
  exists n,
    tr = backoff_trace initialDelay j n ++ [ECall] /\
    Z.of_nat (j + n) < maxRetries /\
    (forall k, (j <= k < j + n)%nat -> exists e, apiCall k = Rejected e /\ isRateLimit e = Ok true) /\
    attempt_ends apiCall maxRetries (j + n) r.
Proof.
  induction fuel as [|fuel IH]; intros j le tr r Hfuel Hlt Hrun; [lia|].
  rewrite retry_loop_S, Nat2Z.id in Hrun.
  replace (Z.of_nat j <? maxRetries) with true in Hrun by (symmetry; apply Z.ltb_lt; lia).
  unfold attempt_ends.
  destruct (apiCall j) as [v|e] eqn:Hj.
  - inversion Hrun; subst. exists 0%nat. rewrite Nat.add_0_r, Hj.
    repeat split; [lia| intros k Hk; lia].
  - destruct (isRateLimit e) as [b|te] eqn:Hc.
    + destruct (b && (Z.of_nat j <? maxRetries - 1)) eqn:Hb.
      * apply andb_true_iff in Hb as [Hb1 Hb2]. subst b. apply Z.ltb_lt in Hb2.
        destruct (retry_loop apiCall maxRetries initialDelay fuel (Z.of_nat j + 1) e)
          as [tr' r'] eqn:Hrec.
        inversion Hrun; subst.
        replace (Z.of_nat j + 1) with (Z.of_nat (S j)) in Hrec by lia.
        destruct (IH (S j) e tr' r ltac:(lia) ltac:(lia) Hrec) as [n [-> [Hn [Hret Hend]]]].
        exists (S n).
        replace (j + S n)%nat with (S j + n)%nat by lia.
        split; [reflexivity|]. split; [lia|]. split; [|exact Hend].
        intros k Hk. destruct (Nat.eq_dec k j) as [->|Hne]; [eauto|].
        apply Hret. lia.
      * inversion Hrun; subst. exists 0%nat. rewrite Nat.add_0_r, Hj, Hc.
        split; [reflexivity|]. split; [lia|]. split; [intros k Hk; lia|].
        split; [reflexivity|].
        destruct b; [right|left; reflexivity].
        cbn in Hb. apply Z.ltb_ge in Hb. lia.
    + inversion Hrun; subst. exists 0%nat. rewrite Nat.add_0_r, Hj, Hc.
      repeat split; [lia| intros k Hk; lia].
Qed.

End RunShape.

Lemma total_sleep_app (t1 t2 : list event) : total_sleep (t1 ++ t2) = total_sleep t1 + total_sleep t2.
Proof. induction t1 as [|[|ms] t1 IH]; cbn; [reflexivity|exact IH|rewrite IH; ring]. Qed.

Lemma total_sleep_backoff (d : Z) (n : nat) :
  forall j, total_sleep (backoff_trace d j n) = d * 2 ^ Z.of_nat j * (2 ^ Z.of_nat n - 1).
Proof.
  induction n as [|n IH]; intros j; [cbn; ring|].
  unfold backoff_trace in *. cbn [seq flat_map app total_sleep]. rewrite IH.
  rewrite !Nat2Z.inj_succ, !Z.pow_succ_r by lia. ring.
Qed.

(** Every run of the executor is [n] failed attempts, each with an error
    classified retryable and followed by the sleep [initialDelay * 2^k],
    and then one final attempt [n < maxRetries] that decides the result. *)
Theorem callGeminiWithRetry_run_shape (apiCall : nat -> outcome) (maxRetries initialDelay : Z)
    (tr : list event) (r : completion) :
  1 <= maxRetries ->
  callGeminiWithRetry apiCall maxRetries initialDelay = (tr, r) ->
  exists n,
    tr = backoff_trace initialDelay 0 n ++ [ECall] /\
    Z.of_nat n < maxRetries /\
    (forall k, (k < n)%nat -> exists e, apiCall k = Rejected e /\ isRateLimit e = Ok true) /\
    attempt_ends apiCall maxRetries n r.
Proof.
  intros Hmax Hrun. unfold callGeminiWithRetry in Hrun. change 0 with (Z.of_nat 0) in Hrun.
  destruct (retry_loop_shape apiCall maxRetries initialDelay (Z.to_nat maxRetries) 0 JUndefined tr r
              ltac:(lia) ltac:(lia) Hrun) as [n [Htr [Hn [Hret Hend]]]].
  exists n. split; [exact Htr|]. split; [lia|]. split; [|exact Hend].
  intros k Hk. apply Hret. lia.
Qed.

(** The executor never calls [apiCall] more than [maxRetries] times (and
    not at all when [maxRetries <= 0]). *)
Theorem callGeminiWithRetry_calls_bounded (apiCall : nat -> outcome) (maxRetries initialDelay : Z) :
  (calls (fst (callGeminiWithRetry apiCall maxRetries initialDelay)) <= Z.to_nat maxRetries)%nat.
Proof.
  destruct (callGeminiWithRetry apiCall maxRetries initialDelay) as [tr r] eqn:Hrun. cbn [fst].
  destruct (Z_le_gt_dec maxRetries 0) as [Hle|Hgt].
  - unfold callGeminiWithRetry in Hrun. replace (Z.to_nat maxRetries) with 0%nat in Hrun by lia.
    inversion Hrun; subst. cbn. lia.
  - destruct (callGeminiWithRetry_run_shape apiCall maxRetries initialDelay tr r ltac:(lia) Hrun)
      as [n [-> [Hn _]]].
    rewrite calls_app, calls_backoff_trace. cbn. lia.
Qed.

(** With a non-negative [initialDelay] a run sleeps at most
    [initialDelay * (2^(maxRetries-1) - 1)] milliseconds in total. *)
Theorem callGeminiWithRetry_total_sleep_bounded (apiCall : nat -> outcome) (maxRetries initialDelay : Z) :
  1 <= maxRetries -> 0 <= initialDelay ->
  0 <= total_sleep (fst (callGeminiWithRetry apiCall maxRetries initialDelay))
    <= initialDelay * (2 ^ (maxRetries - 1) - 1).
Proof.
  intros Hmax Hd.
  destruct (callGeminiWithRetry apiCall maxRetries initialDelay) as [tr r] eqn:Hrun. cbn [fst].
  destruct (callGeminiWithRetry_run_shape apiCall maxRetries initialDelay tr r Hmax Hrun)
    as [n [-> [Hn _]]].
  rewrite total_sleep_app, total_sleep_backoff. cbn [total_sleep]. rewrite Z.pow_0_r.
  assert (H1 : 2 ^ 0 <= 2 ^ Z.of_nat n) by (apply Z.pow_le_mono_r; lia).
  rewrite Z.pow_0_r in H1.
  assert (2 ^ Z.of_nat n <= 2 ^ (maxRetries - 1)) by (apply Z.pow_le_mono_r; lia).
  nia.
Qed.

(** Attempt [k] is reached after [k] retryable failures and decides the
    run: the index [n] of the shape theorem is then [k]. *)
Lemma run_shape_index (apiCall : nat -> outcome) (maxRetries : Z) (k n : nat) (r : completion) :
  (forall j, (j < k)%nat -> exists e, apiCall j = Rejected e /\ isRateLimit e = Ok true) ->
  Z.of_nat k < maxRetries ->
  (forall j, (j < n)%nat -> exists e, apiCall j = Rejected e /\ isRateLimit e = Ok true) ->
  attempt_ends apiCall maxRetries n r ->
  (forall e, apiCall k = Rejected e -> isRateLimit e <> Ok true) ->
  n = k.
Proof.
  intros Hbefore Hk Hn Hend Hk_not.
  destruct (lt_eq_lt_dec n k) as [[Hlt|Heq]|Hgt]; [|exact Heq|].
  - destruct (Hbefore n Hlt) as [e [He Hc]].
    unfold attempt_ends in Hend. rewrite He, Hc in Hend.
    destruct Hend as [_ [Hf|Hlast]]; [discriminate|lia].
  - destruct (Hn k Hgt) as [e [He Hc]]. exfalso. exact (Hk_not e He Hc).
Qed.

(** After [k] failures classified retryable, a success at attempt
    [k < maxRetries] is returned, after exactly the [k] backoff sleeps. *)
Theorem callGeminiWithRetry_success_after_retries (apiCall : nat -> outcome)
    (maxRetries initialDelay : Z) (k : nat) (v : jsval) :
  (forall j, (j < k)%nat -> exists e, apiCall j = Rejected e /\ isRateLimit e = Ok true) ->
  apiCall k = Resolved v ->
  Z.of_nat k < maxRetries ->
  callGeminiWithRetry apiCall maxRetries initialDelay
  = (backoff_trace initialDelay 0 k ++ [ECall], Returned v).
Proof.
  intros Hbefore Hv Hk.
  destruct (callGeminiWithRetry apiCall maxRetries initialDelay) as [tr r] eqn:Hrun.
  destruct (callGeminiWithRetry_run_shape apiCall maxRetries initialDelay tr r ltac:(lia) Hrun)
    as [n [-> [_ [Hn Hend]]]].
  assert (n = k) as ->.
  { apply (run_shape_index apiCall maxRetries k n r Hbefore Hk Hn Hend).
    intros e He. congruence. }
  unfold attempt_ends in Hend. rewrite Hv in Hend. subst r. reflexivity.
Qed.

(** After [k] failures classified retryable, a failure at attempt
    [k < maxRetries] with an error classified non-retryable is thrown as is,
    with no sleep after it. *)
Theorem callGeminiWithRetry_fatal_after_retries (apiCall : nat -> outcome)
    (maxRetries initialDelay : Z) (k : nat) (e : jsval) :
  (forall j, (j < k)%nat -> exists e', apiCall j = Rejected e' /\ isRateLimit e' = Ok true) ->
  apiCall k = Rejected e ->
  isRateLimit e = Ok false ->
  Z.of_nat k < maxRetries ->
  callGeminiWithRetry apiCall maxRetries initialDelay
  = (backoff_trace initialDelay 0 k ++ [ECall], Raised SiteCatch e).
Proof.
  intros Hbefore He Hc Hk.
  destruct (callGeminiWithRetry apiCall maxRetries initialDelay) as [tr r] eqn:Hrun.
  destruct (callGeminiWithRetry_run_shape apiCall maxRetries initialDelay tr r ltac:(lia) Hrun)
    as [n [-> [_ [Hn Hend]]]].
  assert (n = k) as ->.
  { apply (run_shape_index apiCall maxRetries k n r Hbefore Hk Hn Hend).
    intros e' He'. rewrite He in He'. inversion He'; subst. congruence. }
  unfold attempt_ends in Hend. rewrite He, Hc in Hend. destruct Hend as [-> _]. reflexivity.
Qed.

(** ** Further properties of the classification *)

(** A numeric [status] or [code] of 429 makes an error retryable whatever
    its other fields: the [||] chain stops before reading [message]. *)
Theorem isRateLimit_status_or_code_429 (e : jsval) :
  opt_get e "status" = JNumber 429 \/ opt_get e "code" = JNumber 429 ->
  isRateLimit e = Ok true.
Proof.
  intros [H|H]; unfold isRateLimit; rewrite H; cbn.
  - reflexivity.
  - destruct (strict_eq_num (opt_get e "status") 429); reflexivity.
Qed.

(** A plain [new Error(m)] serializes to [{}], so it is classified by its
    message alone. *)
Theorem isRateLimit_new_error (m : string) :
  isRateLimit (new_error m)
  = Ok (includes m "429" || includes m "RESOURCE_EXHAUSTED" || includes m "quota").
Proof.
  unfold isRateLimit, message_includes, stringify_includes. cbn -[includes res_or].
  rewrite !res_or_ok. cbn. rewrite !orb_false_r. reflexivity.
Qed.

(** A call rejected with [undefined] ends the run at once with the
    [TypeError] raised by [JSON.stringify(error).includes], not with
    [undefined]. *)
Theorem callGeminiWithRetry_undefined_rejection (apiCall : nat -> outcome) (maxRetries initialDelay : Z) :
  1 <= maxRetries ->
  apiCall 0%nat = Rejected JUndefined ->
  callGeminiWithRetry apiCall maxRetries initialDelay
  = ([ECall], Raised SiteClassify (type_error "Cannot read properties of undefined (reading 'includes')")).
Proof.
  intros Hmax H0. unfold callGeminiWithRetry.
  replace (Z.to_nat maxRetries) with (S (Z.to_nat maxRetries - 1)) by lia.
  rewrite retry_loop_S.
  replace (0 <? maxRetries) with true by (symmetry; apply Z.ltb_lt; lia).
  cbn [Z.to_nat]. rewrite H0. reflexivity.
Qed.

(** ** Further properties of the operations *)


Lemma prefix_app (p y : string) : String.prefix p (p ++ y)%string = true.
Proof.
  induction p as [|a p IH]; [destruct y; reflexivity|].
  cbn. destruct (ascii_dec a a); [exact IH|congruence].
Qed.

Lemma includes_prefix (s p : string) : String.prefix p s = true -> includes s p = true.
Proof. intros H. destruct s; cbn -[String.prefix]; rewrite H; reflexivity. Qed.

Lemma includes_self_app (p y : string) : includes (p ++ y)%string p = true.
Proof. apply includes_prefix, prefix_app. Qed.

Lemma includes_self (p : string) : includes p p = true.
Proof.
  apply includes_prefix. induction p as [|a p IH]; [reflexivity|].
  cbn. destruct (ascii_dec a a); [exact IH|congruence].
Qed.

Lemma includes_app_r (x y p : string) : includes y p = true -> includes (x ++ y)%string p = true.
Proof.
  intros H. induction x as [|a x IH]; [exact H|].
  cbn -[String.prefix]. destruct (String.prefix p (String a (x ++ y))); [reflexivity|exact IH].
Qed.

Ltac solve_includes :=
  first [ apply includes_self_app | apply includes_self | apply includes_app_r; solve_includes ].

(** Every prompt carries the caller's text verbatim: the feedback and
    consistency prompts contain the question and both answers, the summary
    prompt the answer, the translation request is the text itself; the
    feedback and summary instructions name the target language. *)
Theorem requests_embed_inputs (question maleAnswer femaleAnswer targetLangName text : string)
    (targetLang : lang) (type : SummaryType) :
  let fb := feedback_request question maleAnswer femaleAnswer targetLangName in
  let cc := consistency_request question maleAnswer femaleAnswer in
  let sm := summary_request maleAnswer targetLangName type in
  includes (contents fb) question = true /\ includes (contents fb) maleAnswer = true /\
  includes (contents fb) femaleAnswer = true /\ includes (contents fb) targetLangName = true /\
  includes (systemInstruction (req_config fb)) targetLangName = true /\
  includes (contents cc) question = true /\ includes (contents cc) maleAnswer = true /\
  includes (contents cc) femaleAnswer = true /\
  includes (contents sm) maleAnswer = true /\
  includes (systemInstruction (req_config sm)) targetLangName = true /\
  contents (translate_request text targetLang) = text.
Proof.
  cbv zeta. unfold feedback_request, consistency_request, summary_request.
  cbn [contents req_config systemInstruction].
  repeat split; try solve_includes.
  destruct type; cbn [summary_instruction]; solve_includes.
Qed.

(** Each operation, for every service answer, calls the service at most 5
    times and sleeps at most 5000 + 10000 + 20000 + 40000 = 75000 ms. *)
Theorem operations_bounded (apiKey : option string) (generateContent : service)
    (question maleAnswer femaleAnswer targetLangName text : string) (targetLang : lang)
    (type : option SummaryType) (JSON_parse : string -> option jsval) :
  let bounded (tr : list event) := (calls tr <= 5)%nat /\ 0 <= total_sleep tr <= 75000 in
  bounded (fst (getAiFeedback apiKey generateContent question maleAnswer femaleAnswer targetLangName)) /\
  bounded (fst (translateText apiKey generateContent text targetLang)) /\
  bounded (fst (getAiSummary apiKey generateContent maleAnswer targetLangName type)) /\
  bounded (fst (checkAnswerConsistency JSON_parse apiKey generateContent question maleAnswer femaleAnswer)).
Proof.
  assert (Hexec : forall ac, (calls (fst (callGeminiWithRetry_default ac)) <= 5)%nat /\
                             0 <= total_sleep (fst (callGeminiWithRetry_default ac)) <= 75000).
  { intros ac. unfold callGeminiWithRetry_default. split.
    - exact (callGeminiWithRetry_calls_bounded ac 5 5000).
    - exact (callGeminiWithRetry_total_sleep_bounded ac 5 5000 ltac:(lia) ltac:(lia)). }
  cbv zeta. unfold getAiFeedback, translateText, getAiSummary, checkAnswerConsistency.
  destruct (no_api_key apiKey); [cbn; lia|].
  repeat split;
    match goal with
    | |- context [callGeminiWithRetry_default ?ac] =>
      pose proof (Hexec ac) as Hb; destruct (callGeminiWithRetry_default ac) as [tr r]; cbn [fst] in *; lia
    end.
Qed.

(** ** Witnesses for the further properties *)

Lemma callGeminiWithRetry_run_shape_witness :
  exists n,
    [ECall; ESleep 5000; ECall] = backoff_trace 5000 0 n ++ [ECall] /\
    Z.of_nat n < 5 /\
    (forall k, (k < n)%nat -> exists e, retry_then_ok k = Rejected e /\ isRateLimit e = Ok true) /\
    attempt_ends retry_then_ok 5 n (Returned (JString "ok")).
Proof.
  apply (callGeminiWithRetry_run_shape retry_then_ok 5 5000); [lia|vm_compute; reflexivity].
Defined.

Lemma callGeminiWithRetry_total_sleep_bounded_witness :
  0 <= total_sleep (fst (callGeminiWithRetry (fun _ => Rejected error_status_429) 5 5000)) <= 75000.
Proof.
  apply (callGeminiWithRetry_total_sleep_bounded (fun _ => Rejected error_status_429) 5 5000); lia.
Defined.

Lemma callGeminiWithRetry_success_after_retries_witness :
  callGeminiWithRetry retry_then_ok 5 5000 = ([ECall; ESleep 5000; ECall], Returned (JString "ok")).
Proof.
  rewrite (callGeminiWithRetry_success_after_retries retry_then_ok 5 5000 1 (JString "ok")).
  - reflexivity.
  - intros j Hj. assert (j = 0%nat) as -> by lia. eexists. split; [reflexivity|vm_compute; reflexivity].
  - reflexivity.
  - lia.
Defined.

Lemma callGeminiWithRetry_fatal_after_retries_witness :
  callGeminiWithRetry (fun k => match k with O => Rejected error_status_429 | S _ => Rejected error_400 end) 5 5000
  = ([ECall; ESleep 5000; ECall], Raised SiteCatch error_400).
Proof.
  rewrite (callGeminiWithRetry_fatal_after_retries
             (fun k => match k with O => Rejected error_status_429 | S _ => Rejected error_400 end)
             5 5000 1 error_400).
  - reflexivity.
  - intros j Hj. assert (j = 0%nat) as -> by lia. eexists. split; [reflexivity|vm_compute; reflexivity].
  - reflexivity.
  - vm_compute. reflexivity.
  - lia.
Defined.

Lemma isRateLimit_status_or_code_429_witness :
  isRateLimit (JObject [("code", true, JNumber 429); ("message", true, JNumber 5)]) = Ok true.
Proof. apply isRateLimit_status_or_code_429. right. reflexivity. Defined.

Lemma callGeminiWithRetry_undefined_rejection_witness :
  callGeminiWithRetry (fun _ => Rejected JUndefined) 5 5000
  = ([ECall], Raised SiteClassify (type_error "Cannot read properties of undefined (reading 'includes')")).
Proof. apply callGeminiWithRetry_undefined_rejection; [lia|reflexivity]. Defined.

